(** * Kibana glue code: annotation router, entity-list filters, threshold editor

    A shallow embedding of three TypeScript sources and the properties their
    specification states about them:

    - [register_annotation_apis.ts]: [wrapRouteHandler], the decode /
      dispatch / respond wrapper of the annotation routes;
    - the entity-list filter hook [useEntitiesListFilters] with
      [getSourceTagFilterQuery];
    - [threshold/expression.tsx]: the index-selection callback of the
      index-threshold rule editor, with [refreshEsFields] and
      [setDefaultExpressionValues].

    JavaScript's [undefined] is [None]; [a ?? b] is [default b a]; an optional
    chain [a?.b?.c] is a bind in the option monad.  An [async] function is a
    computation in the monad [Async.t]: it threads the world it acts on and
    settles as fulfilled or rejected. *)

From Stdlib Require Import ZArith String List Permutation.
From stdpp Require Import base option list strings gmap.
Set Warnings "-register-all".
Import ListNotations.
Local Open Scope Z_scope.
Local Open Scope string_scope.
Local Open Scope list_scope.

(** ** Promises and async functions *)

Module Async.

(** A settled promise. *)
Inductive Settled (E A : Type) : Type :=
| Fulfilled (value : A)
| Rejected (reason : E).
Arguments Fulfilled {E A} value.
Arguments Rejected {E A} reason.

(** An async computation over a world [W] (a trace of calls, or the state
    of a component and of its host), rejecting with reasons in [E]. *)
Definition t (W E A : Type) : Type := W → Settled E A * W.

Section ops.
Context {W E : Type}.

Definition ret {A} (a : A) : t W E A := λ w, (Fulfilled a, w).

Definition bind {A B} (k : A → t W E B) (m : t W E A) : t W E B :=
  λ w, match m w with
       | (Fulfilled a, w') => k a w'
       | (Rejected e, w') => (Rejected e, w')
       end.

(** [await p] on an already settled promise. *)
Definition await {A} (p : Settled E A) : t W E A := λ w, (p, w).

(** [try { body } catch (error) { handler error }]. *)
Definition try_catch {A} (body : t W E A) (handler : E → t W E A) : t W E A :=
  λ w, match body w with
       | (Fulfilled a, w') => (Fulfilled a, w')
       | (Rejected e, w') => handler e w'
       end.

(** A synchronous call that only changes the world. *)
Definition act (f : W → W) : t W E () := λ w, (Fulfilled (), f w).
End ops.

#[export] Instance async_ret {W E} : MRet (t W E) := @ret W E.
#[export] Instance async_bind {W E} : MBind (t W E) := @bind W E.

End Async.
Import Async.

(** JavaScript's [Array.prototype.join] on an array of strings. *)
Fixpoint join (sep : string) (xs : list string) : string :=
  match xs with
  | [] => EmptyString
  | [x] => x
  | x :: rest => x +:+ sep +:+ join sep rest
  end.

(** ** The annotation router ([register_annotation_apis.ts]) *)

Module Router.

(** What the catch block reads of a thrown error: [error.output], its
    [statusCode] and [payload.message], each possibly missing.  The
    error's own [message] is carried along; the wrapper never reads it.
    A thrown value is an object, as every [Error] is, and a status code is
    an integer.  A handler that throws [null] or [undefined] is outside
    this model: there [error.output] itself throws inside the catch block
    and the wrapped handler rejects. *)
Record Payload := { payload_message : option string }.
Record Output := { statusCode : option Z; payload : option Payload }.
Record Error := { error_message : string; output : option Output }.

(** The body of the [response.custom] call: the envelope [{ message }]. *)
Record Envelope := { message : string }.

Section wrap.
(** [any]: request parts and handler results, which the wrapper passes on
    without looking inside.  [Errors] is io-ts' [t.Errors]; [EsClient],
    [License] and [ScopedAnnotationsClient] are the host's. *)
Context {any Errors EsClient License ScopedAnnotationsClient : Type}.

(** What [registerAnnotationAPIs] has in scope around the wrapper:
    [formatErrors] of [@kbn/securitysolution-io-ts-utils];
    [createAnnotationsClient({ index, esClient, logger, license })], whose
    logger is the one the trace below records; and the [index] argument. *)
Class Scope := {
  formatErrors : Errors → list string;
  createAnnotationsClient :
    string → EsClient → option License → ScopedAnnotationsClient;
  index : string
}.
Context {scope : Scope}.

Record Request := { body : any; query : any; params : any }.

(** The object [{ body, query, params }] handed to [rt.decode]. *)
Record Data := { data_body : any; data_query : any; data_params : any }.

(** An io-ts type [t.Type<A>], as far as it is used: its [decode], whose
    result is fp-ts' [Either]: [inl] is [Left], [inr] is [Right]. *)
Record Type_ (A : Type) := { decode : Data → Errors + A }.
Arguments decode {A} _ _.

(** The request handler context: [context.core] and [context.licensing]
    are promises.  [core] stands for the resolved value's
    [elasticsearch.client.asCurrentUser]; [licensing] resolves to an
    optional object of which [?.license] is read. *)
Record Context_ := {
  core : Settled Error EsClient;
  licensing : Settled Error (option License)
}.

(** The calls the wrapper and the handler make on the outside, in order.
    [handler_call] marks the call site [await handler({ data, client })];
    [client_call] is for the handlers ([client.create(...)] and so on). *)
Inductive Event :=
| logger_error (msg : string) (error : Error)
| logger_debug (msg : string) (error : Error)
| handler_call
| client_call (method : string) (arg : any).

Definition Trace := list Event.

Definition emit (e : Event) : Async.t Trace Error () :=
  act (λ tr, tr ++ [e]).

(** The three response factory methods the wrapper calls, with the
    options it passes. *)
Inductive KibanaResponse :=
| badRequest (body : string)
| ok (body : any)
| custom (statusCode : Z) (body : Envelope).

(** Modelled from the spec: the response factory is the host's
    ([@kbn/core/server]); [badRequest] answers 400, [ok] answers 200 and
    [custom] answers the status code it is given. *)
Definition status (r : KibanaResponse) : Z :=
  match r with
  | badRequest _ => 400
  | ok _ => 200
  | custom sc _ => sc
  end.

(** The [body] option of the factory call: a string, the handler's
    result, or the envelope. *)
Inductive Body :=
| body_string (s : string)
| body_result (res : any)
| body_envelope (envelope : Envelope).

Definition response_body (r : KibanaResponse) : Body :=
  match r with
  | badRequest s => body_string s
  | ok res => body_result res
  | custom _ envelope => body_envelope envelope
  end.

(** The body of the HTTP response as the client receives it: a JSON
    envelope [{ message }], or the handler's result. *)
Inductive HttpBody :=
| http_envelope (envelope : Envelope)
| http_result (res : any).

(** Modelled from the spec: how the host's response factory
    ([@kbn/core/server], not among the sources) renders a response on the
    wire: "responses are JSON envelopes [{ message }] on error or the raw
    handler result on success".  An error response made from a string
    (the 400 with "a pipe-joined error string") carries that string as the
    message of its envelope. *)
Definition http_body (r : KibanaResponse) : HttpBody :=
  match r with
  | badRequest s => http_envelope {| message := s |}
  | ok res => http_result res
  | custom _ envelope => http_envelope envelope
  end.

(** [error.output?.statusCode ?? 500] *)
Definition resolveStatusCode (error : Error) : Z :=
  default 500 (output error ≫= statusCode).

(** [error.output?.payload?.message ?? 'An internal server error occurred'] *)
Definition resolveErrorMessage (error : Error) : string :=
  default "An internal server error occurred"
          ((output error ≫= payload) ≫= payload_message).

(** [const data = { body: request.body, query: request.query,
    params: request.params }] *)
Definition data_of (request : Request) : Data :=
  {| data_body := body request;
     data_query := query request;
     data_params := params request |}.

Definition wrapRouteHandler {A : Type}
    (types : Type_ A)
    (handler : A → ScopedAnnotationsClient → Async.t Trace Error any)
    (context : Context_) (request : Request)
  : Async.t Trace Error KibanaResponse :=
  let rt := types in
  let data := data_of request in
  let validation := decode rt data in
  match validation with
  | inl validation_left =>
      mret (badRequest (join "|" (formatErrors validation_left)))
  | inr validation_right =>
      esClient ← await (core context);
      license ← await (licensing context);
      let client := createAnnotationsClient index esClient license in
      try_catch
        (emit handler_call;;
         res ← handler validation_right client;
         mret (ok res))
        (λ error,
           let statusCode := resolveStatusCode error in
           let errorMessage := resolveErrorMessage error in
           (if bool_decide (statusCode >= 500)
            then emit (logger_error errorMessage error)
            else emit (logger_debug errorMessage error));;
           mret (custom statusCode {| message := errorMessage |}))
  end.

End wrap.

Arguments Scope : clear implicits.
Arguments decode {any Errors A} _ _.
Arguments badRequest {any} body.
Arguments ok {any} body.
Arguments custom {any} statusCode body.
Arguments body_string {any} s.
Arguments body_result {any} res.
Arguments body_envelope {any} envelope.
Arguments http_envelope {any} envelope.
Arguments http_result {any} res.
Arguments handler_call {any}.
Arguments logger_error {any} msg error.
Arguments logger_debug {any} msg error.

End Router.

(** ** The entity-list filter hook ([useEntitiesListFilters]) *)

Module Filters.

(** Elasticsearch query containers, as far as the hook builds them:
    [{ term: { [field]: value } }], [{ terms: { [field]: values } }],
    [{ wildcard: { [field]: value } }], [{ bool: { should } }] and
    [{ bool: { must_not } }].  [raw] is any other container, which only
    the caller-supplied global query can be.  Severities, criticality
    levels and level fields are string enums. *)
Inductive QueryDslQueryContainer :=
| term (field : string) (value : string)
| terms (field : string) (values : list string)
| wildcard (field : string) (value : string)
| bool_should (should : list QueryDslQueryContainer)
| bool_must_not (must_not : list QueryDslQueryContainer)
| raw (json : string).

Section hook.
Context {EntityType EntitySourceTag : Type} `{EqDecision EntitySourceTag}.

(** What the hook imports: [EntityTypeToLevelField] and
    [RiskScoreFields.unsupported] from [common/search_strategy], the two
    index patterns from [common/constants], and the two members of
    [EntitySourceTag] ([../types]) that it names. *)
Class Imports := {
  EntityTypeToLevelField : EntityType → string;
  RiskScoreFields_unsupported : string;
  ASSET_CRITICALITY_INDEX_PATTERN : string;
  RISK_SCORE_INDEX_PATTERN : string;
  EntitySourceTag_risk : EntitySourceTag;
  EntitySourceTag_criticality : EntitySourceTag
}.
Context {imports : Imports}.

Definition getSourceTagFilterQuery (tag : EntitySourceTag)
  : QueryDslQueryContainer :=
  if decide (tag = EntitySourceTag_risk) then
    wildcard "entity.source" RISK_SCORE_INDEX_PATTERN
  else if decide (tag = EntitySourceTag_criticality) then
    wildcard "entity.source" ASSET_CRITICALITY_INDEX_PATTERN
  else
    bool_must_not
      [ wildcard "entity.source" ASSET_CRITICALITY_INDEX_PATTERN;
        wildcard "entity.source" RISK_SCORE_INDEX_PATTERN ].

(** [xs.length ? a : b]: a length is truthy when it is not zero. *)
Definition if_length {A B} (xs : list A) (a b : B) : B :=
  match length xs with
  | O => b
  | S _ => a
  end.

Definition criticalityFilter (selectedCriticalities : list string)
  : list QueryDslQueryContainer :=
  if_length selectedCriticalities
    [ bool_should
        (map (λ value, term "asset.criticality" value)
             selectedCriticalities) ]
    [].

Definition sourceFilter (selectedSources : list EntitySourceTag)
  : list QueryDslQueryContainer :=
  if_length selectedSources
    [ bool_should
        (map (λ tag, getSourceTagFilterQuery tag) selectedSources) ]
    [].

Definition severityFilter (enabledEntityTypes : list EntityType)
    (selectedSeverities : list string) : list QueryDslQueryContainer :=
  if_length selectedSeverities
    [ bool_should
        (map (λ type, terms (EntityTypeToLevelField type) selectedSeverities)
           (filter
              (λ type, EntityTypeToLevelField type
                         ≠ RiskScoreFields_unsupported)
              enabledEntityTypes)) ]
    [].

(** The hook.  [globalQuery] is [useGlobalFilterQuery().filterQuery],
    [None] when it is [undefined]; [enabledEntityTypes] is
    [useEntityStoreTypes()].  [useMemo] caches the result and has no
    other effect. *)
Definition useEntitiesListFilters
    (globalQuery : option QueryDslQueryContainer)
    (enabledEntityTypes : list EntityType)
    (selectedSeverities selectedCriticalities : list string)
    (selectedSources : list EntitySourceTag)
  : list QueryDslQueryContainer :=
  let filterList :=
    severityFilter enabledEntityTypes selectedSeverities
      ++ criticalityFilter selectedCriticalities
      ++ sourceFilter selectedSources in
  match globalQuery with
  | Some globalQuery => filterList ++ [globalQuery]
  | None => filterList
  end.

End hook.

Arguments Imports : clear implicits.

(** [globalQuery ? [globalQuery] : []]: what the hook pushes last. *)
Definition pushed (globalQuery : option QueryDslQueryContainer)
  : list QueryDslQueryContainer :=
  match globalQuery with
  | Some globalQuery => [globalQuery]
  | None => []
  end.

(** The part of the filter list that a selection set accounts for: nothing
    when the set is empty, one bool/should group when it is not. *)
Definition one_group_iff_nonempty {A} (selected : list A)
    (part : list QueryDslQueryContainer) : Prop :=
  (selected = [] ∧ part = [])
  ∨ (selected ≠ [] ∧ ∃ should, part = [bool_should should]).

(** Two clauses that hold the same elements: [terms] clauses on one field
    whose values are the same multiset, or the same clause. *)
Definition same_clause (c c' : QueryDslQueryContainer) : Prop :=
  match c, c' with
  | terms field vs, terms field' vs' => field = field' ∧ vs ≡ₚ vs'
  | _, _ => c = c'
  end.

(** Two entries of the filter list that hold the same elements: bool/should
    groups whose clauses are the same multiset, clause by clause up to
    [same_clause], or the same entry. *)
Definition same_group (g g' : QueryDslQueryContainer) : Prop :=
  match g, g' with
  | bool_should cs, bool_should cs' =>
      ∃ ds, Forall2 same_clause cs ds ∧ ds ≡ₚ cs'
  | _, _ => g = g'
  end.

End Filters.

(** ** The index-threshold rule editor ([threshold/expression.tsx]) *)

Module Editor.

(** The [index] rule parameter is a [string | string[]]. *)
Inductive IndexParam :=
| index_string (s : string)
| index_array (indices : list string).

(** [IndexThresholdRuleParams] is declared in [./types]; these are the
    twelve parameters the component destructures from [ruleParams].  Each
    may be [undefined] while a rule is being created, which is why the
    component reads them through [??]. *)
Record IndexThresholdRuleParams := {
  index : option IndexParam;
  timeField : option string;
  aggType : option string;
  aggField : option string;
  groupBy : option string;
  termSize : option Z;
  termField : option string;
  thresholdComparator : option string;
  threshold : option (list Z);
  timeWindowSize : option Z;
  timeWindowUnit : option string;
  filterKuery : option string
}.

Record EsField := {
  name : string;
  type : string;
  normalizedType : string;
  searchable : bool;
  aggregatable : bool
}.

Record DefaultValues := {
  AGGREGATION_TYPE : string;
  TERM_SIZE : Z;
  THRESHOLD_COMPARATOR : string;
  TIME_WINDOW_SIZE : Z;
  TIME_WINDOW_UNIT : string;
  THRESHOLD : list Z;
  GROUP_BY : string
}.

(** [indexParamToArray]: [!index] holds of [undefined] and of the empty
    string. *)
Definition indexParamToArray (index : option IndexParam) : list string :=
  match index with
  | None => []
  | Some (index_string EmptyString) => []
  | Some (index_string s) => [s]
  | Some (index_array indices) => indices
  end.

Definition expressionFieldsWithValidation : list string :=
  [ "index"; "timeField"; "aggField"; "termSize"; "termField";
    "threshold0"; "threshold1"; "timeWindowSize" ].

(** The [errors] prop: an object from parameter keys to their validation
    messages, used as a map. *)
Abbreviation ErrorObject := (gmap string (list string)).

(** [Object.keys(errors)].  The order of the keys is not modelled: the
    component only asks whether [find] finds one. *)
Definition Object_keys (errors : ErrorObject) : list string :=
  (map_to_list errors).*1.

(** [errors[errorKey]], for a key of [errors]. *)
Definition errors_at (errors : ErrorObject) (errorKey : string) : list string :=
  default [] (errors !! errorKey).

(** [ruleParams[errorKey] !== undefined]: the parameters object has the
    twelve properties of [IndexThresholdRuleParams] and no other. *)
Definition param_defined (ruleParams : IndexThresholdRuleParams)
    (errorKey : string) : bool :=
  match errorKey with
  | "index" => bool_decide (is_Some (index ruleParams))
  | "timeField" => bool_decide (is_Some (timeField ruleParams))
  | "aggType" => bool_decide (is_Some (aggType ruleParams))
  | "aggField" => bool_decide (is_Some (aggField ruleParams))
  | "groupBy" => bool_decide (is_Some (groupBy ruleParams))
  | "termSize" => bool_decide (is_Some (termSize ruleParams))
  | "termField" => bool_decide (is_Some (termField ruleParams))
  | "thresholdComparator" =>
      bool_decide (is_Some (thresholdComparator ruleParams))
  | "threshold" => bool_decide (is_Some (threshold ruleParams))
  | "timeWindowSize" => bool_decide (is_Some (timeWindowSize ruleParams))
  | "timeWindowUnit" => bool_decide (is_Some (timeWindowUnit ruleParams))
  | "filterKuery" => bool_decide (is_Some (filterKuery ruleParams))
  | _ => false
  end.

(** [!!key] of what [find] returned: [undefined] is falsy, and so is the
    empty string. *)
Definition truthy_key (found : option string) : bool :=
  match found with
  | Some EmptyString => false
  | Some _ => true
  | None => false
  end.

Definition hasExpressionErrors (errors : ErrorObject)
    (ruleParams : IndexThresholdRuleParams) : bool :=
  truthy_key
    (List.find
       (λ errorKey,
          bool_decide (errorKey ∈ expressionFieldsWithValidation)
          && bool_decide (1 ≤ length (errors_at errors errorKey))%nat
          && param_defined ruleParams errorKey)
       (Object_keys errors)).

Definition cannotShowVisualization (errors : ErrorObject) : bool :=
  truthy_key
    (List.find
       (λ errorKey,
          bool_decide (errorKey ∈ expressionFieldsWithValidation)
          && bool_decide (1 ≤ length (errors_at errors errorKey))%nat)
       (Object_keys errors)).

(** What one run of a callback acts on: the rule parameters held by the
    host's rule form, the component's [esFields] state ([useState], first
    [undefined]), and the field lookups sent so far, each with the indices
    it asks about. *)
Record World := {
  host_params : IndexThresholdRuleParams;
  esFields : option (list EsField);
  lookups : list (list string)
}.

(** The keys [setRuleParams] is called with by the callbacks below. *)
Inductive ParamEntry :=
| entry_index (value : list string)
| entry_filterKuery (value : option string).

Definition set_entry (e : ParamEntry) (p : IndexThresholdRuleParams)
  : IndexThresholdRuleParams :=
  match e with
  | entry_index v =>
      {| index := Some (index_array v); timeField := timeField p;
         aggType := aggType p; aggField := aggField p; groupBy := groupBy p;
         termSize := termSize p; termField := termField p;
         thresholdComparator := thresholdComparator p;
         threshold := threshold p; timeWindowSize := timeWindowSize p;
         timeWindowUnit := timeWindowUnit p; filterKuery := filterKuery p |}
  | entry_filterKuery v =>
      {| index := index p; timeField := timeField p;
         aggType := aggType p; aggField := aggField p; groupBy := groupBy p;
         termSize := termSize p; termField := termField p;
         thresholdComparator := thresholdComparator p;
         threshold := threshold p; timeWindowSize := timeWindowSize p;
         timeWindowUnit := timeWindowUnit p; filterKuery := v |}
  end.

Section component.

(** What the component imports and does not define:
    [COMPARATORS.GREATER_THAN] of [@kbn/alerting-comparators], and
    [getFields(http, indices)] of the triggers-actions-ui plugin, as the
    promise the lookup endpoint settles for these indices. *)
Class Imports := {
  COMPARATORS_GREATER_THAN : string;
  getFields : list string → Settled string (list EsField)
}.
Context {imports : Imports}.

Definition DEFAULT_VALUES : DefaultValues := {|
  AGGREGATION_TYPE := "count";
  TERM_SIZE := 5;
  THRESHOLD_COMPARATOR := COMPARATORS_GREATER_THAN;
  TIME_WINDOW_SIZE := 5;
  TIME_WINDOW_UNIT := "m";
  THRESHOLD := [1000];
  GROUP_BY := "all"
|}.

(** The callbacks are async functions over [World]; a rejection carries
    the lookup's failure reason. *)
Abbreviation M := (Async.t World string).

(** Modelled from the spec: the rule parameters are owned by the host
    rule-editing framework and mutated through its callbacks;
    [setRuleParams(key, value)] sets one parameter and
    [setRuleProperty('params', value)] replaces the parameters object. *)
Definition setRuleParams (e : ParamEntry) : M () :=
  act (λ w, {| host_params := set_entry e (host_params w);
               esFields := esFields w; lookups := lookups w |}).

Definition setRuleProperty_params (value : IndexThresholdRuleParams) : M () :=
  act (λ w, {| host_params := value;
               esFields := esFields w; lookups := lookups w |}).

(** The setter of the [esFields] state. *)
Definition setEsFields (fields : list EsField) : M () :=
  act (λ w, {| host_params := host_params w;
               esFields := Some fields; lookups := lookups w |}).

(** The call [getFields(http, indices)]: the request goes out, the
    promise is what [await] then waits for. *)
Definition call_getFields (indices : list string) : M (list EsField) :=
  act (λ w, {| host_params := host_params w; esFields := esFields w;
               lookups := lookups w ++ [indices] |});;
  await (getFields indices).

Definition refreshEsFields (indices : list string) : M () :=
  currentEsFields ← call_getFields indices;
  setEsFields currentEsFields.

(** The callbacks close over [ruleParams], the props of the render that
    created them. *)
Section render.
Variable ruleParams : IndexThresholdRuleParams.

Definition setDefaultExpressionValues : M () :=
  let indexArray := indexParamToArray (index ruleParams) in
  setRuleProperty_params
    {| index := index ruleParams;
       timeField := timeField ruleParams;
       aggType :=
         Some (default (AGGREGATION_TYPE DEFAULT_VALUES) (aggType ruleParams));
       aggField := aggField ruleParams;
       groupBy :=
         Some (default (GROUP_BY DEFAULT_VALUES) (groupBy ruleParams));
       termSize :=
         Some (default (TERM_SIZE DEFAULT_VALUES) (termSize ruleParams));
       termField := termField ruleParams;
       thresholdComparator :=
         Some (default (THRESHOLD_COMPARATOR DEFAULT_VALUES)
                       (thresholdComparator ruleParams));
       threshold :=
         Some (default (THRESHOLD DEFAULT_VALUES) (threshold ruleParams));
       timeWindowSize :=
         Some (default (TIME_WINDOW_SIZE DEFAULT_VALUES)
                       (timeWindowSize ruleParams));
       timeWindowUnit :=
         Some (default (TIME_WINDOW_UNIT DEFAULT_VALUES)
                       (timeWindowUnit ruleParams));
       filterKuery := filterKuery ruleParams |};;
  if bool_decide (0 < length indexArray)%nat
  then refreshEsFields indexArray
  else setEsFields [].

(** The [onIndexChange] callback handed to [IndexSelectPopover]. *)
Definition onIndexChange (indices : list string) : M () :=
  setRuleParams (entry_index indices);;
  if bool_decide (length indices = 0%nat) then
    (* reset expression fields if indices are deleted *)
    setRuleProperty_params
      {| index := Some (index_array indices);
         timeField := Some EmptyString;
         aggType := Some (AGGREGATION_TYPE DEFAULT_VALUES);
         aggField := aggField ruleParams;
         groupBy := Some (GROUP_BY DEFAULT_VALUES);
         termSize := Some (TERM_SIZE DEFAULT_VALUES);
         termField := termField ruleParams;
         thresholdComparator := Some (THRESHOLD_COMPARATOR DEFAULT_VALUES);
         threshold := Some (THRESHOLD DEFAULT_VALUES);
         timeWindowSize := Some (TIME_WINDOW_SIZE DEFAULT_VALUES);
         timeWindowUnit := Some (TIME_WINDOW_UNIT DEFAULT_VALUES);
         filterKuery := filterKuery ruleParams |}
  else
    refreshEsFields indices.

(** [handleFilterChange], with [value] for [e.target.value]: an empty
    string is falsy, so [value || undefined] is [undefined]. *)
Definition handleFilterChange (value : string) : M () :=
  setRuleParams
    (entry_filterKuery (if decide (value = EmptyString) then None else Some value)).

(** [value || fallback] on an optional string: [undefined] and the empty
    string are falsy. *)
Definition or_else (value : option string) (fallback : string) : string :=
  match value with
  | None => fallback
  | Some EmptyString => fallback
  | Some v => v
  end.

(** The props that the render computes with a fallback: [aggType] of
    [WhenExpression], [groupBy] of [GroupByExpression],
    [thresholdComparator] of [ThresholdExpression], and [timeWindowSize]
    and [timeWindowUnit] of [ForLastExpression]. *)
Record ShownProps := {
  shown_aggType : string;
  shown_groupBy : string;
  shown_thresholdComparator : string;
  shown_timeWindowSize : Z;
  shown_timeWindowUnit : string
}.

Definition shownProps : ShownProps :=
  {| shown_aggType :=
       default (AGGREGATION_TYPE DEFAULT_VALUES) (aggType ruleParams);
     shown_groupBy := or_else (groupBy ruleParams) (GROUP_BY DEFAULT_VALUES);
     shown_thresholdComparator :=
       default (THRESHOLD_COMPARATOR DEFAULT_VALUES)
               (thresholdComparator ruleParams);
     shown_timeWindowSize :=
       default (TIME_WINDOW_SIZE DEFAULT_VALUES) (timeWindowSize ruleParams);
     shown_timeWindowUnit :=
       default (TIME_WINDOW_UNIT DEFAULT_VALUES) (timeWindowUnit ruleParams) |}.
End render.

End component.

End Editor.

(** ** Sample inputs *)

Module Samples.
Import Router.

(** A registration over JSON text: validation errors are already strings,
    the clients are named by their index. *)
#[export] Instance sample_scope : Scope (list string) () () string :=
  {| formatErrors errors := errors;
     createAnnotationsClient index esClient license := index;
     index := "observability-annotations" |}.

(** A route whose type wants a body and an id in the path. *)
Definition sample_rt : Type_ (any := string) (Errors := list string) string :=
  {| decode d :=
       if decide (data_body d = EmptyString) then
         inl (["body is required"]
                ++ (if decide (data_params d = EmptyString)
                    then ["id is required"] else []))
       else inr (data_body d) |}.

Definition sample_context : Context_ (EsClient := ()) (License := ()) :=
  {| core := Fulfilled (); licensing := Fulfilled (Some ()) |}.

Definition malformed_request : Request :=
  {| body := EmptyString; query := EmptyString; params := EmptyString |}.

Definition good_request : Request :=
  {| body := "{annotation}"; query := EmptyString; params := "42" |}.

(** A handler that calls the client and returns what it was given. *)
Definition echo_handler (data : string) (client : string)
  : Async.t (Trace (any := string)) Error string :=
  emit (client_call "create" data);; mret data.

(** A handler that calls the client, which throws [error]. *)
Definition failing_handler (error : Error) (data : string) (client : string)
  : Async.t (Trace (any := string)) Error string :=
  emit (client_call "getById" data);; await (Rejected error).

(** What [Boom.notFound('annotation not found')] looks like. *)
Definition boom_not_found : Error :=
  {| error_message := "annotation not found";
     output :=
       Some {| statusCode := Some 404;
               payload :=
                 Some {| payload_message := Some "annotation not found" |} |} |}.

(** An error given a 404 status code by hand, without a payload. *)
Definition bare_not_found : Error :=
  {| error_message := "annotation not found";
     output := Some {| statusCode := Some 404; payload := None |} |}.

(** An error of the Elasticsearch client: no [output] at all. *)
Definition es_error : Error :=
  {| error_message := "index_not_found_exception"; output := None |}.

(** Entity types with their level fields: the universal entity type has no
    risk level. *)
Inductive SampleEntityType := host | user | service | universal.

Inductive SampleSourceTag := tag_risk | tag_criticality | tag_events.

#[export] Instance sample_tag_eq_dec : EqDecision SampleSourceTag.
Proof. solve_decision. Defined.

#[export] Instance sample_imports
  : Filters.Imports SampleEntityType SampleSourceTag :=
  {| Filters.EntityTypeToLevelField type :=
       match type with
       | host => "host.risk.calculated_level"
       | user => "user.risk.calculated_level"
       | service => "service.risk.calculated_level"
       | universal => "unsupported"
       end;
     Filters.RiskScoreFields_unsupported := "unsupported";
     Filters.ASSET_CRITICALITY_INDEX_PATTERN :=
       ".asset-criticality.asset-criticality-*";
     Filters.RISK_SCORE_INDEX_PATTERN := "risk-score.risk-score-*";
     Filters.EntitySourceTag_risk := tag_risk;
     Filters.EntitySourceTag_criticality := tag_criticality |}.

(** Rule parameters of a rule under edit. *)
Definition sample_params : Editor.IndexThresholdRuleParams :=
  {| Editor.index := Some (Editor.index_array ["logs-*"]);
     Editor.timeField := Some "@timestamp";
     Editor.aggType := Some "avg";
     Editor.aggField := Some "bytes";
     Editor.groupBy := Some "top";
     Editor.termSize := Some 10;
     Editor.termField := Some "host.name";
     Editor.thresholdComparator := Some "between";
     Editor.threshold := Some [10; 20];
     Editor.timeWindowSize := Some 15;
     Editor.timeWindowUnit := Some "h";
     Editor.filterKuery := Some "status:500" |}.

Definition timestamp_field : Editor.EsField :=
  {| Editor.name := "@timestamp"; Editor.type := "date";
     Editor.normalizedType := "date"; Editor.searchable := true;
     Editor.aggregatable := true |}.

(** A lookup endpoint that knows one field of every index and fails on the
    index pattern [broken-*]. *)
#[export] Instance sample_editor_imports : Editor.Imports :=
  {| Editor.COMPARATORS_GREATER_THAN := ">";
     Editor.getFields indices :=
       if decide (indices = ["broken-*"]) then Rejected "lookup failed"
       else Fulfilled [timestamp_field] |}.

Definition sample_world : Editor.World :=
  {| Editor.host_params := sample_params;
     Editor.esFields := None;
     Editor.lookups := [] |}.

(** A context whose [core] promise is rejected. *)
Definition broken_context : Context_ (EsClient := ()) (License := ()) :=
  {| core := Rejected es_error; licensing := Fulfilled (Some ()) |}.

(** A request with the same body as [good_request], for another id. *)
Definition other_request : Request :=
  {| body := "{annotation}"; query := "verbose"; params := "43" |}.

(** The same failure as [boom_not_found] under another message. *)
Definition renamed_not_found : Error :=
  {| error_message := "no document with id 42 in observability-annotations";
     output := output boom_not_found |}.

(** The parameters of a rule that has just been created. *)
Definition fresh_params : Editor.IndexThresholdRuleParams :=
  {| Editor.index := None;
     Editor.timeField := None;
     Editor.aggType := None;
     Editor.aggField := None;
     Editor.groupBy := None;
     Editor.termSize := None;
     Editor.termField := None;
     Editor.thresholdComparator := None;
     Editor.threshold := None;
     Editor.timeWindowSize := None;
     Editor.timeWindowUnit := None;
     Editor.filterKuery := None |}.

(** Validation results: a threshold is missing; the filter does not parse;
    the time field and the index are missing. *)
Definition threshold_errors : Editor.ErrorObject :=
  {[ "threshold0" := ["Threshold 0 is required."] ]}.

Definition filter_errors : Editor.ErrorObject :=
  {[ "filterKuery" := ["Filter query is invalid."] ]}.

Definition index_errors : Editor.ErrorObject :=
  <[ "timeField" := ["A time field is required."] ]>
    {[ "index" := ["Index is required."] ]}.

End Samples.

(** * Properties *)

(** [join] is the standard library's [String.concat]. *)
Lemma join_concat sep xs : join sep xs = String.concat sep xs.
Proof.
  induction xs as [|x [|y rest] IH]; [reflexivity | reflexivity |].
  change (x +:+ sep +:+ join sep (y :: rest)
          = x +:+ sep +:+ String.concat sep (y :: rest)).
  by rewrite IH.
Qed.

(** Running an async function: unfold the monad down to the world. *)
Ltac run_async :=
  unfold mbind, mret, async_bind, async_ret, Async.bind, Async.ret,
    Async.await, Async.try_catch, Async.act in *;
  simpl in *.

(** ** The annotation router *)

Section router_properties.
Import Router.
Context {any Errors EsClient License ScopedAnnotationsClient A : Type}.
Context {scope : Scope Errors EsClient License ScopedAnnotationsClient}.
Variable types : Type_ (any := any) (Errors := Errors) A.
Variable handler :
  A → ScopedAnnotationsClient → Async.t (Trace (any := any)) Error any.
Variable request : Request (any := any).

(** A context whose promises are fulfilled. *)
Local Abbreviation fulfilled esClient license :=
  {| core := Fulfilled esClient; licensing := Fulfilled license |}.

(** Once the request decodes and the context promises are fulfilled, the
    wrapper's outcome is decided by the handler's. *)
Lemma wrapRouteHandler_dispatch a esClient license tr :
  decode types (data_of request) = inr a →
  wrapRouteHandler types handler (fulfilled esClient license) request tr
  = match handler a (createAnnotationsClient index esClient license)
                  (tr ++ [handler_call]) with
    | (Fulfilled res, tr') => (Fulfilled (ok res), tr')
    | (Rejected error, tr') =>
        (Fulfilled (custom (resolveStatusCode error)
                           {| message := resolveErrorMessage error |}),
         tr' ++ [if bool_decide (resolveStatusCode error >= 500)
                 then logger_error (resolveErrorMessage error) error
                 else logger_debug (resolveErrorMessage error) error])
    end.
Proof.
  intros Hdec. unfold wrapRouteHandler.
  rewrite Hdec. unfold emit. run_async.
  destruct (handler a _ _) as [[res|error] tr']; [reflexivity|].
  by destruct (bool_decide _).
Qed.

(** [error.output?.statusCode ?? 500], case by case. *)
Lemma resolveStatusCode_cases error :
  resolveStatusCode error
  = match output error with
    | Some {| statusCode := Some code |} => code
    | _ => 500
    end.
Proof. unfold resolveStatusCode. by destruct error as [? [[[?|] ?]|]]. Qed.

(** [error.output?.payload?.message ?? '...'], case by case. *)
Lemma resolveErrorMessage_cases error :
  resolveErrorMessage error
  = match output error with
    | Some {| payload := Some {| payload_message := Some msg |} |} => msg
    | _ => "An internal server error occurred"
    end.
Proof.
  unfold resolveErrorMessage. by destruct error as [? [[? [[[?|]]|]]|]].
Qed.

(** C1.  A request that fails to decode against the route's io-ts type is
    answered with [badRequest] (status 400), whose body is the formatted
    validation errors joined with ['|'].  The trace is left as it was:
    the handler is not entered, no client call and no log call is made.
    This holds whatever the handler and the context promises are. *)
Theorem wrapRouteHandler_decode_failure context errors tr :
  decode types (data_of request) = inl errors →
  wrapRouteHandler types handler context request tr
  = (Fulfilled (badRequest (join "|" (formatErrors errors))), tr)
  ∧ status (badRequest (any := any) (join "|" (formatErrors errors))) = 400.
Proof.
  intros Hdec. split; [|reflexivity].
  unfold wrapRouteHandler. by rewrite Hdec.
Qed.

(** C2 (amended).  When the handler throws an error whose
    [output.statusCode] is 404, the response has status 404 and the body
    [{ message }], where the message is the error's
    [output.payload.message] when there is one and the generic fallback
    otherwise; the error's own [message] is not consulted. *)
Theorem wrapRouteHandler_not_found a esClient license tr error tr' out :
  decode types (data_of request) = inr a →
  handler a (createAnnotationsClient index esClient license)
          (tr ++ [handler_call]) = (Rejected error, tr') →
  output error = Some out →
  statusCode out = Some 404 →
  ∃ response,
    fst (wrapRouteHandler types handler (fulfilled esClient license)
                          request tr)
    = Fulfilled response
    ∧ status response = 404
    ∧ response_body response
      = body_envelope
          {| message := match payload out with
                        | Some {| payload_message := Some msg |} => msg
                        | _ => "An internal server error occurred"
                        end |}.
Proof.
  intros Hdec Hthrow Hout Hcode.
  rewrite (wrapRouteHandler_dispatch _ _ _ _ Hdec), Hthrow.
  eexists; split; [reflexivity|]. simpl.
  rewrite resolveStatusCode_cases, resolveErrorMessage_cases, Hout.
  destruct out as [code pl]; simpl in *. subst code. done.
Qed.

(** C3.  When the handler throws, the response's status code is the
    error's [output.statusCode] when that is present and 500 otherwise,
    and the message of its body is the error's [output.payload.message]
    when that is present and ['An internal server error occurred']
    otherwise. *)
Theorem wrapRouteHandler_error_mapping a esClient license tr error tr' :
  decode types (data_of request) = inr a →
  handler a (createAnnotationsClient index esClient license)
          (tr ++ [handler_call]) = (Rejected error, tr') →
  ∃ response,
    fst (wrapRouteHandler types handler (fulfilled esClient license)
                          request tr)
    = Fulfilled response
    ∧ status response
      = match output error with
        | Some {| statusCode := Some code |} => code
        | _ => 500
        end
    ∧ response_body response
      = body_envelope
          {| message :=
               match output error with
               | Some {| payload := Some {| payload_message := Some msg |} |} =>
                   msg
               | _ => "An internal server error occurred"
               end |}.
Proof.
  intros Hdec Hthrow.
  rewrite (wrapRouteHandler_dispatch _ _ _ _ Hdec), Hthrow.
  eexists; split; [reflexivity|]. simpl.
  by rewrite resolveStatusCode_cases, resolveErrorMessage_cases.
Qed.

(** The [body] option of the factory call, path by path: on a decode
    failure the joined error string, on a handler exception the envelope
    [{ message }], on success the handler's return value. *)
Lemma wrapRouteHandler_factory_bodies esClient license tr :
  let outcome :=
    fst (wrapRouteHandler types handler (fulfilled esClient license)
                          request tr) in
  match decode types (data_of request) with
  | inl errors =>
      ∃ response, outcome = Fulfilled response
        ∧ status response = 400
        ∧ response_body response
          = body_string (join "|" (formatErrors errors))
  | inr a =>
      match handler a (createAnnotationsClient index esClient license)
                    (tr ++ [handler_call]) with
      | (Fulfilled res, _) =>
          ∃ response, outcome = Fulfilled response
            ∧ status response = 200
            ∧ response_body response = body_result res
      | (Rejected error, _) =>
          ∃ response, outcome = Fulfilled response
            ∧ response_body response
              = body_envelope {| message := resolveErrorMessage error |}
      end
  end.
Proof.
  intros outcome. subst outcome.
  destruct (decode types (data_of request)) as [errors|a] eqn:Hdec.
  - unfold wrapRouteHandler. rewrite Hdec. by eexists.
  - rewrite (wrapRouteHandler_dispatch _ _ _ _ Hdec).
    destruct (handler a _ _) as [[res|error] tr']; by eexists.
Qed.

(** C6.  With the context promises fulfilled, the body of the HTTP
    response is a JSON envelope [{ message }] whenever the response is an
    error: on a decode failure (status 400) its message is the joined
    validation errors, on a handler exception it is the resolved error
    message.  On success the status is 200 and the body is exactly the
    handler's return value. *)
Theorem wrapRouteHandler_http_body esClient license tr :
  let outcome :=
    fst (wrapRouteHandler types handler (fulfilled esClient license)
                          request tr) in
  match decode types (data_of request) with
  | inl errors =>
      ∃ response, outcome = Fulfilled response
        ∧ status response = 400
        ∧ http_body response
          = http_envelope {| message := join "|" (formatErrors errors) |}
  | inr a =>
      match handler a (createAnnotationsClient index esClient license)
                    (tr ++ [handler_call]) with
      | (Fulfilled res, _) =>
          ∃ response, outcome = Fulfilled response
            ∧ status response = 200
            ∧ http_body response = http_result res
      | (Rejected error, _) =>
          ∃ response, outcome = Fulfilled response
            ∧ status response
              = match output error with
                | Some {| statusCode := Some code |} => code
                | _ => 500
                end
            ∧ http_body response
              = http_envelope
                  {| message :=
                       match output error with
                       | Some {| payload :=
                                   Some {| payload_message := Some msg |} |} =>
                           msg
                       | _ => "An internal server error occurred"
                       end |}
      end
  end.
Proof.
  intros outcome. subst outcome.
  destruct (decode types (data_of request)) as [errors|a] eqn:Hdec.
  - unfold wrapRouteHandler. rewrite Hdec. by eexists.
  - rewrite (wrapRouteHandler_dispatch _ _ _ _ Hdec).
    destruct (handler a _ _) as [[res|error] tr']; [by eexists|].
    eexists. split; [reflexivity|]. simpl.
    by rewrite resolveStatusCode_cases, resolveErrorMessage_cases.
Qed.

(** C7.  When the handler throws, the wrapper makes exactly one log call
    after whatever the handler did: [logger.error] with the resolved
    message if and only if the resolved status code is at least 500, and
    [logger.debug] with it otherwise. *)
Theorem wrapRouteHandler_logs_once a esClient license tr error tr' :
  decode types (data_of request) = inr a →
  handler a (createAnnotationsClient index esClient license)
          (tr ++ [handler_call]) = (Rejected error, tr') →
  let statusCode := match output error with
                    | Some {| statusCode := Some code |} => code
                    | _ => 500
                    end in
  let errorMessage :=
    match output error with
    | Some {| payload := Some {| payload_message := Some msg |} |} => msg
    | _ => "An internal server error occurred"
    end in
  ∃ entry,
    snd (wrapRouteHandler types handler (fulfilled esClient license)
                          request tr)
    = tr' ++ [entry]
    ∧ (entry = logger_error errorMessage error ↔ statusCode >= 500)
    ∧ (entry = logger_debug errorMessage error ↔ statusCode < 500).
Proof.
  intros Hdec Hthrow statusCode errorMessage.
  rewrite (wrapRouteHandler_dispatch _ _ _ _ Hdec), Hthrow.
  eexists; split; [reflexivity|].
  rewrite resolveStatusCode_cases, resolveErrorMessage_cases.
  fold statusCode errorMessage.
  case_bool_decide; split; split; intros; try done; lia.
Qed.

End router_properties.

Section router_examples.
Import Router Samples.

Lemma wrapRouteHandler_decode_failure_witness :
  wrapRouteHandler sample_rt echo_handler sample_context malformed_request []
  = (Fulfilled (badRequest "body is required|id is required"), [])
  ∧ status (badRequest (any := string) "body is required|id is required")
    = 400.
Proof.
  exact (wrapRouteHandler_decode_failure
           sample_rt echo_handler malformed_request sample_context
           ["body is required"; "id is required"] [] eq_refl).
Defined.

Lemma wrapRouteHandler_not_found_witness :
  ∃ response,
    fst (wrapRouteHandler sample_rt (failing_handler boom_not_found)
                          sample_context good_request [])
    = Fulfilled response
    ∧ status response = 404
    ∧ response_body response
      = body_envelope {| message := "annotation not found" |}.
Proof.
  exact (wrapRouteHandler_not_found
           sample_rt (failing_handler boom_not_found) good_request
           "{annotation}" () (Some ()) [] boom_not_found
           [handler_call; client_call "getById" "{annotation}"]
           {| statusCode := Some 404;
              payload :=
                Some {| payload_message := Some "annotation not found" |} |}
           eq_refl eq_refl eq_refl eq_refl).
Defined.

(** C2, as stated, fails: an error that carries [output.statusCode = 404]
    but no [output.payload] is answered with status 404 and the generic
    message, not with the error's message. *)
Lemma not_found_without_payload_counterexample :
  (output bare_not_found ≫= statusCode) = Some 404
  ∧ ∃ response,
      fst (wrapRouteHandler sample_rt (failing_handler bare_not_found)
                            sample_context good_request [])
      = Fulfilled response
      ∧ status response = 404
      ∧ response_body response
        = body_envelope {| message := "An internal server error occurred" |}
      ∧ response_body response
        ≠ body_envelope {| message := error_message bare_not_found |}.
Proof.
  split; [reflexivity|]. eexists. split; [reflexivity|].
  repeat split. discriminate.
Qed.

Lemma wrapRouteHandler_error_mapping_witness :
  ∃ response,
    fst (wrapRouteHandler sample_rt (failing_handler es_error)
                          sample_context good_request [])
    = Fulfilled response
    ∧ status response = 500
    ∧ response_body response
      = body_envelope {| message := "An internal server error occurred" |}.
Proof.
  exact (wrapRouteHandler_error_mapping
           sample_rt (failing_handler es_error) good_request
           "{annotation}" () (Some ()) [] es_error
           [handler_call; client_call "getById" "{annotation}"]
           eq_refl eq_refl).
Defined.

(** The three paths of the sample route: what goes over HTTP. *)
Example sample_http_bodies :
  (∃ response,
       fst (wrapRouteHandler sample_rt echo_handler sample_context
                             malformed_request [])
       = Fulfilled response
       ∧ status response = 400
       ∧ http_body response
         = http_envelope {| message := "body is required|id is required" |})
  ∧ (∃ response,
       fst (wrapRouteHandler sample_rt (failing_handler es_error)
                             sample_context good_request [])
       = Fulfilled response
       ∧ status response = 500
       ∧ http_body response
         = http_envelope {| message := "An internal server error occurred" |})
  ∧ (∃ response,
       fst (wrapRouteHandler sample_rt echo_handler sample_context
                             good_request [])
       = Fulfilled response
       ∧ status response = 200
       ∧ http_body response = http_result "{annotation}").
Proof. repeat split; by eexists. Qed.

Lemma wrapRouteHandler_logs_once_witness :
  ∃ entry,
    snd (wrapRouteHandler sample_rt (failing_handler boom_not_found)
                          sample_context good_request [])
    = [handler_call; client_call "getById" "{annotation}"] ++ [entry]
    ∧ (entry = logger_error "annotation not found" boom_not_found
       ↔ 404 >= 500)
    ∧ (entry = logger_debug "annotation not found" boom_not_found
       ↔ 404 < 500).
Proof.
  exact (wrapRouteHandler_logs_once
           sample_rt (failing_handler boom_not_found) good_request
           "{annotation}" () (Some ()) [] boom_not_found
           [handler_call; client_call "getById" "{annotation}"]
           eq_refl eq_refl).
Defined.

End router_examples.

(** ** The entity-list filter hook *)

Section filter_properties.
Import Filters.
Context {EntityType EntitySourceTag : Type} `{EqDecision EntitySourceTag}.
Context {imports : Imports EntityType EntitySourceTag}.

Lemma same_clause_refl c : same_clause c c.
Proof. destruct c; simpl; auto. Qed.

Lemma same_clauses_refl cs : Forall2 same_clause cs cs.
Proof. induction cs; constructor; auto using same_clause_refl. Qed.

Lemma same_group_refl g : same_group g g.
Proof.
  destruct g as [| | |cs| |]; simpl; auto.
  exists cs. split; [apply same_clauses_refl|done].
Qed.

(** [same_group] keeps the number of clauses of a group, and tells apart
    groups over different values. *)
Lemma same_group_length cs cs' :
  same_group (bool_should cs) (bool_should cs') → length cs = length cs'.
Proof.
  intros (ds & Hcs & Hp).
  rewrite <- (Permutation_length Hp). by eapply Forall2_length.
Qed.

Lemma same_group_distinguishes field v v' :
  v ≠ v' →
  ¬ same_group (bool_should [term field v]) (bool_should [term field v']).
Proof.
  intros Hne (ds & Hcs & Hp).
  inversion Hcs as [|c d cs1 ds1 Hc Hrest]; subst.
  inversion Hrest; subst. simpl in Hc. subst d.
  apply Permutation_singleton_l in Hp. congruence.
Qed.

(** A group over permuted clauses holds the same elements. *)
Lemma same_group_perm cs cs' :
  cs ≡ₚ cs' → same_group (bool_should cs) (bool_should cs').
Proof.
  intros Hp. exists cs. split; [apply same_clauses_refl|done].
Qed.

Lemma if_length_perm {X Y} (xs xs' : list X) (a b : Y) :
  xs ≡ₚ xs' → if_length xs' a b = if_length xs a b.
Proof. intros Hp. unfold if_length. by rewrite (Permutation_length Hp). Qed.

Lemma if_length_one_group {X} (selected : list X) should :
  one_group_iff_nonempty selected (if_length selected [bool_should should] []).
Proof.
  destruct selected; [left|right]; split; try done. by exists should.
Qed.

(** What the hook returns, part by part. *)
Lemma useEntitiesListFilters_parts globalQuery enabled sev crit src :
  useEntitiesListFilters globalQuery enabled sev crit src
  = severityFilter enabled sev ++ criticalityFilter crit
      ++ sourceFilter src ++ pushed globalQuery.
Proof.
  unfold useEntitiesListFilters.
  destruct globalQuery; simpl; by rewrite ?app_nil_r, <- ?app_assoc.
Qed.

Lemma criticalityFilter_perm crit crit' :
  crit ≡ₚ crit' →
  Forall2 same_group (criticalityFilter crit) (criticalityFilter crit').
Proof.
  intros Hp. unfold criticalityFilter. rewrite (if_length_perm _ _ _ _ Hp).
  unfold if_length. destruct (length crit); repeat constructor.
  apply same_group_perm. by apply Permutation_map.
Qed.

Lemma sourceFilter_perm src src' :
  src ≡ₚ src' → Forall2 same_group (sourceFilter src) (sourceFilter src').
Proof.
  intros Hp. unfold sourceFilter. rewrite (if_length_perm _ _ _ _ Hp).
  unfold if_length. destruct (length src); repeat constructor.
  apply same_group_perm. by apply Permutation_map.
Qed.

Lemma severityFilter_perm enabled sev sev' :
  sev ≡ₚ sev' →
  Forall2 same_group (severityFilter enabled sev) (severityFilter enabled sev').
Proof.
  intros Hp. unfold severityFilter. rewrite (if_length_perm _ _ _ _ Hp).
  unfold if_length. destruct (length sev); repeat constructor.
  eexists. split; [|reflexivity].
  induction (filter _ enabled); constructor; simpl; auto.
Qed.

(** C4.  The returned list is the severity part, the criticality part and
    the source part, followed by the global query when there is one.  Each
    part is exactly one bool/should group when its selection set is not
    empty and nothing when it is empty.  Reordering the elements of the
    selection sets gives a list with the same entries at the same places,
    each holding the same elements as a multiset. *)
Theorem useEntitiesListFilters_one_group_per_selection
    globalQuery enabled sev crit src sev' crit' src' :
  sev ≡ₚ sev' → crit ≡ₚ crit' → src ≡ₚ src' →
  useEntitiesListFilters globalQuery enabled sev crit src
  = severityFilter enabled sev ++ criticalityFilter crit
      ++ sourceFilter src ++ pushed globalQuery
  ∧ one_group_iff_nonempty sev (severityFilter enabled sev)
  ∧ one_group_iff_nonempty crit (criticalityFilter crit)
  ∧ one_group_iff_nonempty src (sourceFilter src)
  ∧ Forall2 same_group
      (useEntitiesListFilters globalQuery enabled sev crit src)
      (useEntitiesListFilters globalQuery enabled sev' crit' src').
Proof.
  intros Hsev Hcrit Hsrc.
  split; [apply useEntitiesListFilters_parts|].
  repeat split; try apply if_length_one_group.
  rewrite !useEntitiesListFilters_parts.
  repeat apply Forall2_app;
    auto using severityFilter_perm, criticalityFilter_perm, sourceFilter_perm.
  destruct globalQuery; repeat constructor. apply same_group_refl.
Qed.

(** C5.  With the three selection sets empty and no global query, the hook
    returns the empty list, whatever entity types are enabled. *)
Theorem useEntitiesListFilters_empty enabled :
  useEntitiesListFilters None enabled [] [] [] = [].
Proof. reflexivity. Qed.

(** The severity part for a non-empty selection: one group, with one
    [terms] clause per supported enabled entity type. *)
Lemma severityFilter_clauses enabled sev :
  sev ≠ [] →
  ∃ should,
    severityFilter enabled sev = [bool_should should]
    ∧ Forall2 (λ type clause, clause = terms (EntityTypeToLevelField type) sev)
        (filter (λ type, EntityTypeToLevelField type
                           ≠ RiskScoreFields_unsupported)
                enabled)
        should
    ∧ ((∀ type, type ∈ enabled →
          EntityTypeToLevelField type = RiskScoreFields_unsupported) →
       should = []).
Proof.
  intros Hne. eexists. split; [|split].
  - unfold severityFilter, if_length. destruct sev; [done|reflexivity].
  - induction (filter _ enabled); constructor; auto.
  - intros Hall.
    replace (filter _ enabled) with (@nil EntityType); [done|].
    symmetry. induction enabled as [|type rest IH]; [done|].
    rewrite filter_cons_False.
    + apply IH. intros t Ht. apply Hall. by right.
    + intros Hsup. apply Hsup, Hall. by left.
Qed.


(** C10.  With a non-empty severity selection, the first entry of the
    list the hook returns is the severity bool/should group.  Its clauses
    are, in order, one [terms] clause per enabled entity type whose level
    field is not the unsupported one, each on that type's level field and
    matching the selected severities.  If no enabled entity type is
    supported the group is still emitted, with an empty [should] list: it
    holds none of the selected severities, and the hook returns the same
    list whatever non-empty severity selection is made, so the selection
    constrains nothing. *)
Theorem useEntitiesListFilters_severity_group globalQuery enabled sev crit
    src :
  sev ≠ [] →
  ∃ should,
    useEntitiesListFilters globalQuery enabled sev crit src
    = bool_should should
        :: criticalityFilter crit ++ sourceFilter src ++ pushed globalQuery
    ∧ Forall2 (λ type clause, clause = terms (EntityTypeToLevelField type) sev)
        (filter (λ type, EntityTypeToLevelField type
                           ≠ RiskScoreFields_unsupported)
                enabled)
        should
    ∧ ((∀ type, type ∈ enabled →
          EntityTypeToLevelField type = RiskScoreFields_unsupported) →
       should = []
       ∧ ∀ sev', sev' ≠ [] →
           useEntitiesListFilters globalQuery enabled sev' crit src
           = useEntitiesListFilters globalQuery enabled sev crit src).
Proof.
  intros Hne.
  destruct (severityFilter_clauses enabled sev Hne)
    as (should & Hpart & Hclauses & Hnone).
  exists should. split; [|split; [done|]].
  - by rewrite useEntitiesListFilters_parts, Hpart.
  - intros Hall. split; [by apply Hnone|]. intros sev' Hne'.
    destruct (severityFilter_clauses enabled sev' Hne')
      as (should' & Hpart' & _ & Hnone').
    rewrite !useEntitiesListFilters_parts, Hpart, Hpart'.
    by rewrite (Hnone Hall), (Hnone' Hall).
Qed.

End filter_properties.

Section filter_examples.
Import Filters Samples.

Lemma useEntitiesListFilters_one_group_per_selection_witness :
  useEntitiesListFilters None [host; universal; user] ["High"; "Low"] []
                         [tag_events; tag_risk]
  = severityFilter [host; universal; user] ["High"; "Low"]
      ++ criticalityFilter []
      ++ sourceFilter [tag_events; tag_risk]
      ++ pushed None
  ∧ one_group_iff_nonempty ["High"; "Low"]
      (severityFilter [host; universal; user] ["High"; "Low"])
  ∧ one_group_iff_nonempty (@nil string) (criticalityFilter [])
  ∧ one_group_iff_nonempty [tag_events; tag_risk]
      (sourceFilter [tag_events; tag_risk])
  ∧ Forall2 same_group
      (useEntitiesListFilters None [host; universal; user] ["High"; "Low"] []
                              [tag_events; tag_risk])
      (useEntitiesListFilters None [host; universal; user] ["Low"; "High"] []
                              [tag_risk; tag_events]).
Proof.
  apply (useEntitiesListFilters_one_group_per_selection
           None [host; universal; user]
           ["High"; "Low"] [] [tag_events; tag_risk]
           ["Low"; "High"] [] [tag_risk; tag_events]).
  - apply perm_swap.
  - apply perm_nil.
  - apply perm_swap.
Defined.

Lemma useEntitiesListFilters_severity_group_witness :
  ∃ should,
    useEntitiesListFilters None [host; universal; user] ["High"; "Low"]
                           ["high_impact"] [tag_risk]
    = bool_should should
        :: criticalityFilter ["high_impact"] ++ sourceFilter [tag_risk]
             ++ pushed None
    ∧ Forall2
        (λ type clause,
           clause = terms (EntityTypeToLevelField type) ["High"; "Low"])
        (filter (λ type, EntityTypeToLevelField type
                           ≠ RiskScoreFields_unsupported)
                [host; universal; user])
        should
    ∧ ((∀ type, type ∈ [host; universal; user] →
          EntityTypeToLevelField type = RiskScoreFields_unsupported) →
       should = []
       ∧ ∀ sev', sev' ≠ [] →
           useEntitiesListFilters None [host; universal; user] sev'
                                  ["high_impact"] [tag_risk]
           = useEntitiesListFilters None [host; universal; user]
               ["High"; "Low"] ["high_impact"] [tag_risk]).
Proof.
  apply (useEntitiesListFilters_severity_group None [host; universal; user]
           ["High"; "Low"] ["high_impact"] [tag_risk]).
  discriminate.
Defined.

(** The severity group at the samples: two supported types give two
    clauses; with only the universal type enabled the group is emitted
    empty, the same for two different selections. *)
Example severity_group_samples :
  useEntitiesListFilters None [host; universal; user] ["High"; "Low"]
                         ["high_impact"] [tag_risk]
  = [ bool_should
        [ terms "host.risk.calculated_level" ["High"; "Low"];
          terms "user.risk.calculated_level" ["High"; "Low"] ];
      bool_should [ term "asset.criticality" "high_impact" ];
      bool_should [ wildcard "entity.source" "risk-score.risk-score-*" ] ]
  ∧ useEntitiesListFilters None [universal] ["High"] [] []
    = [ bool_should [] ]
  ∧ useEntitiesListFilters None [universal] ["Low"; "Critical"] [] []
    = [ bool_should [] ]
  ∧ useEntitiesListFilters None [universal] [] [] [] = [].
Proof. repeat split. Qed.

End filter_examples.

(** ** The index-threshold rule editor *)

Section editor_properties.
Import Editor.
Context {imports : Imports}.
Variable ruleParams : IndexThresholdRuleParams.

(** [refreshEsFields] sends one lookup for the indices it is given; when
    the lookup resolves, its result becomes the [esFields] state, and when
    it fails the state is left alone and the failure is passed on. *)
Lemma refreshEsFields_run indices w :
  refreshEsFields indices w
  = match getFields indices with
    | Fulfilled fields =>
        (Fulfilled (),
         {| host_params := host_params w; esFields := Some fields;
            lookups := lookups w ++ [indices] |})
    | Rejected reason =>
        (Rejected reason,
         {| host_params := host_params w; esFields := esFields w;
            lookups := lookups w ++ [indices] |})
    end.
Proof.
  unfold refreshEsFields, call_getFields, setEsFields. run_async.
  by destruct (getFields indices).
Qed.

(** C8 (amended).  A selection of at least one index sends exactly one
    field lookup, [getFields] over the selected indices, and once that
    lookup resolves its result is the [esFields] state.  An empty
    selection sends no lookup and stores nothing in [esFields]. *)
Theorem onIndexChange_refreshes_fields indices w :
  (indices ≠ [] →
   let w' := snd (onIndexChange ruleParams indices w) in
   lookups w' = lookups w ++ [indices]
   ∧ ∀ fields, getFields indices = Fulfilled fields →
       fst (onIndexChange ruleParams indices w) = Fulfilled ()
       ∧ esFields w' = Some fields)
  ∧ lookups (snd (onIndexChange ruleParams [] w)) = lookups w
  ∧ esFields (snd (onIndexChange ruleParams [] w)) = esFields w.
Proof.
  split; [|by split].
  intros Hne w'. subst w'. unfold onIndexChange, setRuleParams.
  run_async. rewrite bool_decide_eq_false_2 by by destruct indices.
  rewrite refreshEsFields_run. simpl.
  destruct (getFields indices) as [fields|reason]; simpl.
  - split; [done|]. by intros ? [= <-].
  - split; [done|]. by intros ? [=].
Qed.

(** C9.  On an empty selection no lookup is sent and [esFields] is left
    alone.  The rule parameters become: [index] the empty selection just
    received, [timeField] the empty string, [aggType], [termSize],
    [thresholdComparator], [timeWindowSize], [timeWindowUnit], [groupBy]
    and [threshold] their values in [DEFAULT_VALUES]; the remaining ones,
    [aggField], [termField] and [filterKuery], are what they were. *)
Theorem onIndexChange_empty_resets w :
  host_params w = ruleParams →
  let w' := snd (onIndexChange ruleParams [] w) in
  fst (onIndexChange ruleParams [] w) = Fulfilled ()
  ∧ lookups w' = lookups w
  ∧ esFields w' = esFields w
  ∧ host_params w'
    = {| index := Some (index_array []);
         timeField := Some EmptyString;
         aggType := Some "count";
         aggField := aggField (host_params w);
         groupBy := Some "all";
         termSize := Some 5;
         termField := termField (host_params w);
         thresholdComparator := Some COMPARATORS_GREATER_THAN;
         threshold := Some [1000];
         timeWindowSize := Some 5;
         timeWindowUnit := Some "m";
         filterKuery := filterKuery (host_params w) |}.
Proof. intros ->. repeat split. Qed.

End editor_properties.

Section editor_examples.
Import Editor Samples.

Lemma onIndexChange_refreshes_fields_witness :
  (let w' := snd (onIndexChange sample_params ["metrics-*"] sample_world) in
   lookups w' = lookups sample_world ++ [["metrics-*"]]
   ∧ ∀ fields, getFields ["metrics-*"] = Fulfilled fields →
       fst (onIndexChange sample_params ["metrics-*"] sample_world)
       = Fulfilled ()
       ∧ esFields w' = Some fields)
  ∧ lookups (snd (onIndexChange sample_params [] sample_world))
    = lookups sample_world
  ∧ esFields (snd (onIndexChange sample_params [] sample_world))
    = esFields sample_world.
Proof.
  destruct (onIndexChange_refreshes_fields sample_params ["metrics-*"]
              sample_world) as [Hselected Hempty].
  split; [|exact Hempty].
  apply Hselected. discriminate.
Defined.

(** At the sample, the non-empty selection sends its lookup and stores
    the answer. *)
Example onIndexChange_metrics_selection :
  let w' := snd (onIndexChange sample_params ["metrics-*"] sample_world) in
  lookups w' = [["metrics-*"]] ∧ esFields w' = Some [timestamp_field].
Proof. by split. Qed.

(** C8, as stated, fails on the empty selection: the callback completes
    without sending a lookup, and what [getFields] answers for the empty
    selection is not stored in [esFields]. *)
Lemma empty_selection_no_lookup_counterexample :
  let w' := snd (onIndexChange sample_params [] sample_world) in
  fst (onIndexChange sample_params [] sample_world) = Fulfilled ()
  ∧ lookups w' = []
  ∧ lookups w' ≠ lookups sample_world ++ [[]]
  ∧ getFields [] = Fulfilled [timestamp_field]
  ∧ esFields w' = None
  ∧ esFields w' ≠ Some [timestamp_field].
Proof. repeat split; discriminate. Qed.

Lemma onIndexChange_empty_resets_witness :
  let w' := snd (onIndexChange sample_params [] sample_world) in
  fst (onIndexChange sample_params [] sample_world) = Fulfilled ()
  ∧ lookups w' = []
  ∧ esFields w' = None
  ∧ host_params w'
    = {| index := Some (index_array []);
         timeField := Some EmptyString;
         aggType := Some "count";
         aggField := Some "bytes";
         groupBy := Some "all";
         termSize := Some 5;
         termField := Some "host.name";
         thresholdComparator := Some ">";
         threshold := Some [1000];
         timeWindowSize := Some 5;
         timeWindowUnit := Some "m";
         filterKuery := Some "status:500" |}.
Proof.
  exact (onIndexChange_empty_resets sample_params sample_world eq_refl).
Defined.

End editor_examples.

(** * Further properties *)

(** ** The annotation router: the paths around the handler *)

Section router_paths.
Import Router.
Context {any Errors EsClient License ScopedAnnotationsClient A : Type}.
Context {scope : Scope Errors EsClient License ScopedAnnotationsClient}.
Variable types : Type_ (any := any) (Errors := Errors) A.

Local Abbreviation Handler :=
  (A → ScopedAnnotationsClient → Async.t (Trace (any := any)) Error any).

(** X1.  When the handler returns, the response is [ok] with status 200
    and the handler's value as body, and the wrapper adds nothing to the
    trace after the handler: it logs only in the catch block. *)
Theorem wrapRouteHandler_success (handler : Handler) request a esClient
    license tr res tr' :
  decode types (data_of request) = inr a →
  handler a (createAnnotationsClient index esClient license)
          (tr ++ [handler_call]) = (Fulfilled res, tr') →
  wrapRouteHandler types handler
    {| core := Fulfilled esClient; licensing := Fulfilled license |}
    request tr
  = (Fulfilled (ok res), tr')
  ∧ status (ok res) = 200.
Proof.
  intros Hdec Hres. split; [|reflexivity].
  unfold wrapRouteHandler. rewrite Hdec. unfold emit. run_async.
  by rewrite Hres.
Qed.

(** X2.  For a request that decodes: the context promises are awaited
    after the decoding and before the [try], so when [context.core] is
    rejected, or is fulfilled and [context.licensing] is rejected, the
    wrapped handler rejects with that reason.  No response is built,
    nothing is logged and the handler is not entered.  (A request that
    fails to decode is answered before the context is looked at.) *)
Theorem wrapRouteHandler_context_rejected (handler : Handler) request a
    context reason tr :
  decode types (data_of request) = inr a →
  core context = Rejected reason
  ∨ (∃ esClient, core context = Fulfilled esClient
                 ∧ licensing context = Rejected reason) →
  wrapRouteHandler types handler context request tr = (Rejected reason, tr).
Proof.
  intros Hdec Hrej. unfold wrapRouteHandler. rewrite Hdec. run_async.
  destruct Hrej as [->|(esClient & -> & ->)]; reflexivity.
Qed.

(** X4.  The response to a thrown error is made from [error.output] alone:
    two handlers that throw errors with the same [output] are answered
    alike, whatever else the errors carry and whatever the handlers did
    before.  In particular the error's own [message] does not reach the
    response. *)
Theorem wrapRouteHandler_response_from_output (handler handler' : Handler)
    request a esClient license tr error error' tr1 tr2 :
  decode types (data_of request) = inr a →
  handler a (createAnnotationsClient index esClient license)
          (tr ++ [handler_call]) = (Rejected error, tr1) →
  handler' a (createAnnotationsClient index esClient license)
           (tr ++ [handler_call]) = (Rejected error', tr2) →
  output error = output error' →
  fst (wrapRouteHandler types handler
         {| core := Fulfilled esClient; licensing := Fulfilled license |}
         request tr)
  = fst (wrapRouteHandler types handler'
           {| core := Fulfilled esClient; licensing := Fulfilled license |}
           request tr).
Proof.
  intros Hdec Hthrow Hthrow' Hout.
  rewrite !(wrapRouteHandler_dispatch _ _ _ _ _ _ _ Hdec), Hthrow, Hthrow'.
  simpl. unfold resolveStatusCode, resolveErrorMessage. by rewrite Hout.
Qed.

(** X5.  The request reaches the handler only through [rt.decode]: two
    requests that decode alike get the same response and leave the same
    trace. *)
Theorem wrapRouteHandler_through_decode (handler : Handler) context
    request request' tr :
  decode types (data_of request) = decode types (data_of request') →
  wrapRouteHandler types handler context request tr
  = wrapRouteHandler types handler context request' tr.
Proof. intros Hdec. unfold wrapRouteHandler. by rewrite Hdec. Qed.

End router_paths.

Section router_path_examples.
Import Router Samples.

Lemma wrapRouteHandler_success_witness :
  wrapRouteHandler sample_rt echo_handler sample_context good_request []
  = (Fulfilled (ok "{annotation}"),
     [handler_call; client_call "create" "{annotation}"])
  ∧ status (ok "{annotation}") = 200.
Proof.
  exact (wrapRouteHandler_success sample_rt echo_handler good_request
           "{annotation}" () (Some ()) [] "{annotation}"
           [handler_call; client_call "create" "{annotation}"]
           eq_refl eq_refl).
Defined.

Lemma wrapRouteHandler_context_rejected_witness :
  wrapRouteHandler sample_rt echo_handler broken_context good_request []
  = (Rejected es_error, []).
Proof.
  exact (wrapRouteHandler_context_rejected sample_rt echo_handler
           good_request "{annotation}" broken_context es_error []
           eq_refl (or_introl eq_refl)).
Defined.

Lemma wrapRouteHandler_response_from_output_witness :
  fst (wrapRouteHandler sample_rt (failing_handler boom_not_found)
         sample_context good_request [])
  = fst (wrapRouteHandler sample_rt (failing_handler renamed_not_found)
           sample_context good_request []).
Proof.
  exact (wrapRouteHandler_response_from_output sample_rt
           (failing_handler boom_not_found)
           (failing_handler renamed_not_found) good_request
           "{annotation}" () (Some ()) [] boom_not_found renamed_not_found
           [handler_call; client_call "getById" "{annotation}"]
           [handler_call; client_call "getById" "{annotation}"]
           eq_refl eq_refl eq_refl eq_refl).
Defined.

Lemma wrapRouteHandler_through_decode_witness :
  wrapRouteHandler sample_rt echo_handler sample_context good_request []
  = wrapRouteHandler sample_rt echo_handler sample_context other_request [].
Proof.
  exact (wrapRouteHandler_through_decode sample_rt echo_handler
           sample_context good_request other_request [] eq_refl).
Defined.

End router_path_examples.

(** ** The entity-list filter hook: size, entity types, source tags *)

Section filter_shape.
Import Filters.
Context {EntityType EntitySourceTag : Type} `{EqDecision EntitySourceTag}.
Context {imports : Imports EntityType EntitySourceTag}.

(** X6.  The filter list has one entry per non-empty selection set and one
    more when there is a global query: never more than four, however many
    values are selected and however many entity types are enabled. *)
Theorem useEntitiesListFilters_length globalQuery enabled sev crit src :
  length (useEntitiesListFilters globalQuery enabled sev crit src)
  = (if_length sev 1 0 + if_length crit 1 0 + if_length src 1 0
     + length (pushed globalQuery))%nat
  ∧ (length (useEntitiesListFilters globalQuery enabled sev crit src) ≤ 4)%nat.
Proof.
  rewrite useEntitiesListFilters_parts, !length_app.
  unfold severityFilter, criticalityFilter, sourceFilter, if_length.
  destruct (length sev), (length crit), (length src), globalQuery;
    simpl; lia.
Qed.

(** X7.  An enabled entity type whose level field is the unsupported one
    has no effect on the filters, wherever it stands among the enabled
    types. *)
Theorem useEntitiesListFilters_unsupported_type globalQuery before type after
    sev crit src :
  EntityTypeToLevelField type = RiskScoreFields_unsupported →
  useEntitiesListFilters globalQuery (before ++ type :: after) sev crit src
  = useEntitiesListFilters globalQuery (before ++ after) sev crit src.
Proof.
  intros Hun. unfold useEntitiesListFilters, severityFilter.
  rewrite !filter_app, filter_cons_False; [done|].
  intros Hsup. by apply Hsup.
Qed.

(** X8.  Source tags other than the risk tag and the criticality tag are
    not told apart: each of them gives the query that excludes both index
    patterns. *)
Theorem getSourceTagFilterQuery_other_tags tag tag' :
  tag ≠ EntitySourceTag_risk → tag ≠ EntitySourceTag_criticality →
  tag' ≠ EntitySourceTag_risk → tag' ≠ EntitySourceTag_criticality →
  getSourceTagFilterQuery tag = getSourceTagFilterQuery tag'
  ∧ getSourceTagFilterQuery tag
    = bool_must_not
        [ wildcard "entity.source" ASSET_CRITICALITY_INDEX_PATTERN;
          wildcard "entity.source" RISK_SCORE_INDEX_PATTERN ].
Proof.
  intros Hr Hc Hr' Hc'. unfold getSourceTagFilterQuery.
  by repeat case_decide.
Qed.

End filter_shape.

Section filter_shape_examples.
Import Filters Samples.

Lemma useEntitiesListFilters_unsupported_type_witness :
  useEntitiesListFilters None ([host] ++ universal :: [user]) ["High"] [] []
  = useEntitiesListFilters None ([host] ++ [user]) ["High"] [] [].
Proof.
  exact (useEntitiesListFilters_unsupported_type None [host] universal [user]
           ["High"] [] [] eq_refl).
Defined.

Lemma getSourceTagFilterQuery_other_tags_witness :
  getSourceTagFilterQuery tag_events = getSourceTagFilterQuery tag_events
  ∧ getSourceTagFilterQuery tag_events
    = bool_must_not
        [ wildcard "entity.source" ASSET_CRITICALITY_INDEX_PATTERN;
          wildcard "entity.source" RISK_SCORE_INDEX_PATTERN ].
Proof.
  apply (getSourceTagFilterQuery_other_tags tag_events tag_events);
    discriminate.
Defined.

End filter_shape_examples.

(** ** The rule editor: defaults, index selection, filter input *)

Section editor_callbacks.
Import Editor.
Context {imports : Imports}.

(** A parameter after the defaults were filled in: its old value when it
    had one, the default [d] when it had none. *)
Local Abbreviation filled d old new :=
  ((∀ v, old = Some v → new = Some v) ∧ (old = None → new = Some d)).

Lemma bool_decide_length_pos {X} (xs : list X) :
  bool_decide (0 < length xs)%nat = bool_decide (xs ≠ []).
Proof. apply bool_decide_ext. destruct xs; simpl; split; (done || lia). Qed.

(** X9.  [indexParamToArray] normalises: applying it to its own result
    changes nothing, and the result is empty exactly for [undefined], for
    the empty string and for the empty array. *)
Theorem indexParamToArray_normalises index :
  indexParamToArray (Some (index_array (indexParamToArray index)))
  = indexParamToArray index
  ∧ (indexParamToArray index = []
     ↔ index = None ∨ index = Some (index_string EmptyString)
       ∨ index = Some (index_array [])).
Proof.
  split; [reflexivity|].
  destruct index as [[[|c s]|[|i rest]]|]; simpl; split; intros Hx;
    try done; auto; by destruct Hx as [?|[?|?]].
Qed.

(** X10.  [setDefaultExpressionValues] gives each of [aggType],
    [termSize], [thresholdComparator], [timeWindowSize], [timeWindowUnit],
    [groupBy] and [threshold] its default only when it has no value, and
    hands [index], [timeField], [aggField], [termField] and [filterKuery]
    back as they are in the props, whether or not the lookup that follows
    succeeds. *)
Theorem setDefaultExpressionValues_fills ruleParams w :
  let p := host_params (snd (setDefaultExpressionValues ruleParams w)) in
  filled "count" (aggType ruleParams) (aggType p)
  ∧ filled 5 (termSize ruleParams) (termSize p)
  ∧ filled COMPARATORS_GREATER_THAN (thresholdComparator ruleParams)
           (thresholdComparator p)
  ∧ filled 5 (timeWindowSize ruleParams) (timeWindowSize p)
  ∧ filled "m" (timeWindowUnit ruleParams) (timeWindowUnit p)
  ∧ filled "all" (groupBy ruleParams) (groupBy p)
  ∧ filled [1000] (threshold ruleParams) (threshold p)
  ∧ index p = index ruleParams
  ∧ timeField p = timeField ruleParams
  ∧ aggField p = aggField ruleParams
  ∧ termField p = termField ruleParams
  ∧ filterKuery p = filterKuery ruleParams.
Proof.
  intros p. subst p. unfold setDefaultExpressionValues, setRuleProperty_params.
  run_async. case_bool_decide.
  - rewrite refreshEsFields_run. simpl.
    destruct (getFields _); simpl;
      repeat split; intros; simplify_option_eq; done.
  - unfold setEsFields. run_async.
    repeat split; intros; simplify_option_eq; done.
Qed.

(** X11.  Filling in the defaults is idempotent on the rule parameters:
    the component rendered with the parameters it has just written writes
    the same parameters again. *)
Theorem setDefaultExpressionValues_idempotent ruleParams w :
  let w1 := snd (setDefaultExpressionValues ruleParams w) in
  host_params (snd (setDefaultExpressionValues (host_params w1) w1))
  = host_params w1.
Proof.
  intros w1. subst w1.
  assert (Hparams : ∀ p v,
    host_params (snd (setDefaultExpressionValues p v))
    = host_params (snd (setRuleProperty_params
        {| index := index p; timeField := timeField p;
           aggType := Some (default "count" (aggType p));
           aggField := aggField p;
           groupBy := Some (default "all" (groupBy p));
           termSize := Some (default 5 (termSize p));
           termField := termField p;
           thresholdComparator :=
             Some (default COMPARATORS_GREATER_THAN (thresholdComparator p));
           threshold := Some (default [1000] (threshold p));
           timeWindowSize := Some (default 5 (timeWindowSize p));
           timeWindowUnit := Some (default "m" (timeWindowUnit p));
           filterKuery := filterKuery p |} v))).
  { intros p v. unfold setDefaultExpressionValues, setRuleProperty_params.
    run_async. case_bool_decide.
    - rewrite refreshEsFields_run. simpl. by destruct (getFields _).
    - reflexivity. }
  rewrite !Hparams. reflexivity.
Qed.

(** X12.  When the [index] parameter is [undefined], the empty string or
    the empty array, [setDefaultExpressionValues] sends no lookup and sets
    [esFields] to the empty array. *)
Theorem setDefaultExpressionValues_without_index ruleParams w :
  indexParamToArray (index ruleParams) = [] →
  let w' := snd (setDefaultExpressionValues ruleParams w) in
  fst (setDefaultExpressionValues ruleParams w) = Fulfilled ()
  ∧ lookups w' = lookups w
  ∧ esFields w' = Some [].
Proof.
  intros Hempty w'. subst w'.
  unfold setDefaultExpressionValues, setRuleProperty_params, setEsFields.
  run_async. by rewrite Hempty.
Qed.

(** X13.  Otherwise [setDefaultExpressionValues] sends one lookup, over
    the index as an array (a single index pattern given as a string
    becomes a one-element array).  When the lookup resolves its result is
    the [esFields] state; when it fails, [setDefaultExpressionValues]
    rejects with the same reason and [esFields] is left as it was. *)
Theorem setDefaultExpressionValues_with_index ruleParams w :
  indexParamToArray (index ruleParams) ≠ [] →
  let indexArray := indexParamToArray (index ruleParams) in
  let w' := snd (setDefaultExpressionValues ruleParams w) in
  lookups w' = lookups w ++ [indexArray]
  ∧ (∀ fields, getFields indexArray = Fulfilled fields →
       fst (setDefaultExpressionValues ruleParams w) = Fulfilled ()
       ∧ esFields w' = Some fields)
  ∧ (∀ reason, getFields indexArray = Rejected reason →
       fst (setDefaultExpressionValues ruleParams w) = Rejected reason
       ∧ esFields w' = esFields w).
Proof.
  intros Hne indexArray w'. subst indexArray w'.
  unfold setDefaultExpressionValues, setRuleProperty_params.
  run_async. rewrite bool_decide_length_pos, bool_decide_eq_true_2 by done.
  rewrite refreshEsFields_run. simpl.
  destruct (getFields _) as [fields|reason]; simpl;
    repeat split; intros; simplify_eq; done.
Qed.

(** X14.  A selection of at least one index changes the [index] parameter
    and no other: the eleven remaining parameters of the host are what
    they were, whether or not the lookup succeeds. *)
Theorem onIndexChange_keeps_other_params ruleParams indices w :
  indices ≠ [] →
  let p := host_params w in
  host_params (snd (onIndexChange ruleParams indices w))
  = {| index := Some (index_array indices);
       timeField := timeField p; aggType := aggType p;
       aggField := aggField p; groupBy := groupBy p;
       termSize := termSize p; termField := termField p;
       thresholdComparator := thresholdComparator p;
       threshold := threshold p; timeWindowSize := timeWindowSize p;
       timeWindowUnit := timeWindowUnit p; filterKuery := filterKuery p |}.
Proof.
  intros Hne p. subst p. unfold onIndexChange, setRuleParams. run_async.
  rewrite bool_decide_eq_false_2 by by destruct indices.
  rewrite refreshEsFields_run. simpl. by destruct (getFields _).
Qed.

(** X15.  When the lookup that follows a selection fails, [onIndexChange]
    rejects with the lookup's reason.  The [index] parameter has already
    been set to the selection, and [esFields] still holds the fields of
    the previous selection. *)
Theorem onIndexChange_lookup_failure ruleParams indices w reason :
  indices ≠ [] →
  getFields indices = Rejected reason →
  let w' := snd (onIndexChange ruleParams indices w) in
  fst (onIndexChange ruleParams indices w) = Rejected reason
  ∧ index (host_params w') = Some (index_array indices)
  ∧ esFields w' = esFields w
  ∧ lookups w' = lookups w ++ [indices].
Proof.
  intros Hne Hrej w'. subst w'. unfold onIndexChange, setRuleParams.
  run_async. rewrite bool_decide_eq_false_2 by by destruct indices.
  rewrite refreshEsFields_run, Hrej. done.
Qed.

(** X16.  The parameters written by an empty selection are complete:
    filling in the defaults on them changes no parameter and sends no
    lookup, and sets [esFields] to the empty array. *)
Theorem onIndexChange_empty_then_defaults ruleParams w :
  let w1 := snd (onIndexChange ruleParams [] w) in
  let w2 := snd (setDefaultExpressionValues (host_params w1) w1) in
  fst (setDefaultExpressionValues (host_params w1) w1) = Fulfilled ()
  ∧ host_params w2 = host_params w1
  ∧ lookups w2 = lookups w
  ∧ esFields w2 = Some [].
Proof. repeat split. Qed.

(** X17.  [handleFilterChange] never stores the empty string: an empty
    input clears [filterKuery], any other input becomes its value.  The
    other parameters, [esFields] and the lookups are left alone. *)
Theorem handleFilterChange_filterKuery value w :
  let w' := snd (handleFilterChange value w) in
  let p := host_params w in
  fst (handleFilterChange value w) = Fulfilled ()
  ∧ filterKuery (host_params w') ≠ Some EmptyString
  ∧ (value = EmptyString → filterKuery (host_params w') = None)
  ∧ (value ≠ EmptyString → filterKuery (host_params w') = Some value)
  ∧ host_params w'
    = {| index := index p; timeField := timeField p; aggType := aggType p;
         aggField := aggField p; groupBy := groupBy p;
         termSize := termSize p; termField := termField p;
         thresholdComparator := thresholdComparator p;
         threshold := threshold p; timeWindowSize := timeWindowSize p;
         timeWindowUnit := timeWindowUnit p;
         filterKuery := filterKuery (host_params w') |}
  ∧ esFields w' = esFields w
  ∧ lookups w' = lookups w.
Proof.
  intros w' p. subst w' p. unfold handleFilterChange, setRuleParams.
  run_async. case_decide; repeat split; intros; congruence.
Qed.

(** X22.  Filling in the defaults does not change what the expression
    controls show: the render already falls back to the same defaults, for
    [groupBy] with [||] where [setDefaultExpressionValues] uses [??], and
    an empty [groupBy], which only [||] replaces, is shown as the default
    before and after. *)
Theorem setDefaultExpressionValues_shows_the_same ruleParams w :
  shownProps (host_params (snd (setDefaultExpressionValues ruleParams w)))
  = shownProps ruleParams.
Proof.
  unfold setDefaultExpressionValues, setRuleProperty_params. run_async.
  case_bool_decide.
  - rewrite refreshEsFields_run.
    destruct (getFields _); unfold shownProps; simpl; f_equal;
      by destruct (groupBy ruleParams) as [[|]|].
  - unfold setEsFields, shownProps. run_async. f_equal.
    by destruct (groupBy ruleParams) as [[|]|].
Qed.

End editor_callbacks.

Section editor_callback_examples.
Import Editor Samples.

Lemma setDefaultExpressionValues_without_index_witness :
  let w' := snd (setDefaultExpressionValues fresh_params sample_world) in
  fst (setDefaultExpressionValues fresh_params sample_world) = Fulfilled ()
  ∧ lookups w' = lookups sample_world
  ∧ esFields w' = Some [].
Proof.
  exact (setDefaultExpressionValues_without_index fresh_params sample_world
           eq_refl).
Defined.

Lemma setDefaultExpressionValues_with_index_witness :
  let indexArray := indexParamToArray (index sample_params) in
  let w' := snd (setDefaultExpressionValues sample_params sample_world) in
  lookups w' = lookups sample_world ++ [indexArray]
  ∧ (∀ fields, getFields indexArray = Fulfilled fields →
       fst (setDefaultExpressionValues sample_params sample_world)
       = Fulfilled ()
       ∧ esFields w' = Some fields)
  ∧ (∀ reason, getFields indexArray = Rejected reason →
       fst (setDefaultExpressionValues sample_params sample_world)
       = Rejected reason
       ∧ esFields w' = esFields sample_world).
Proof.
  apply (setDefaultExpressionValues_with_index sample_params sample_world).
  discriminate.
Defined.

Lemma onIndexChange_keeps_other_params_witness :
  host_params (snd (onIndexChange sample_params ["broken-*"] sample_world))
  = {| index := Some (index_array ["broken-*"]);
       timeField := Some "@timestamp"; aggType := Some "avg";
       aggField := Some "bytes"; groupBy := Some "top";
       termSize := Some 10; termField := Some "host.name";
       thresholdComparator := Some "between";
       threshold := Some [10; 20]; timeWindowSize := Some 15;
       timeWindowUnit := Some "h"; filterKuery := Some "status:500" |}.
Proof.
  apply (onIndexChange_keeps_other_params sample_params ["broken-*"]
           sample_world).
  discriminate.
Defined.

Lemma onIndexChange_lookup_failure_witness :
  let w' := snd (onIndexChange sample_params ["broken-*"] sample_world) in
  fst (onIndexChange sample_params ["broken-*"] sample_world)
  = Rejected "lookup failed"
  ∧ index (host_params w') = Some (index_array ["broken-*"])
  ∧ esFields w' = esFields sample_world
  ∧ lookups w' = lookups sample_world ++ [["broken-*"]].
Proof.
  apply (onIndexChange_lookup_failure sample_params ["broken-*"] sample_world
           "lookup failed").
  - discriminate.
  - reflexivity.
Defined.

End editor_callback_examples.

(** ** The rule editor: the error callout and the preview *)

(** Going through the validated fields one by one. *)
Ltac each_validated_field H :=
  repeat (apply elem_of_cons in H as [->|H]); [..|by apply elem_of_nil in H].

Section editor_flags.
Import Editor.

(** A key that [find] can return is one of the validated fields, none of
    which is the empty string: what is found is truthy. *)
Lemma truthy_key_find (f : string → bool) keys :
  (∀ key, f key = true → key ∈ expressionFieldsWithValidation) →
  truthy_key (List.find f keys) = true ↔ ∃ key, key ∈ keys ∧ f key = true.
Proof.
  intros Hf. split.
  - destruct (List.find f keys) as [key|] eqn:Hfind; [|done].
    intros _. apply find_some in Hfind as [Hin Hkey].
    exists key. by rewrite list_elem_of_In.
  - intros (key & Hin & Hkey).
    destruct (List.find f keys) as [found|] eqn:Hfind.
    + apply find_some in Hfind as [_ Hfound]. apply Hf in Hfound.
      destruct found; [|done].
      by repeat (apply elem_of_cons in Hfound as [?|Hfound]; [done|]);
         apply elem_of_nil in Hfound.
    + apply list_elem_of_In in Hin.
      by rewrite (find_none _ _ Hfind _ Hin) in Hkey.
Qed.

Lemma elem_of_Object_keys (errors : ErrorObject) key :
  key ∈ Object_keys errors ↔ is_Some (errors !! key).
Proof.
  unfold Object_keys. rewrite list_elem_of_fmap. split.
  - intros ([k v] & -> & Hin). apply elem_of_map_to_list in Hin. by eexists.
  - intros [v Hv]. exists (key, v). split; [done|].
    by apply elem_of_map_to_list.
Qed.

(** The preview is withheld exactly when a validated field has a
    message. *)
Lemma cannotShowVisualization_spec (errors : ErrorObject) :
  cannotShowVisualization errors = true
  ↔ ∃ key msgs, errors !! key = Some msgs
                ∧ key ∈ expressionFieldsWithValidation ∧ msgs ≠ [].
Proof.
  unfold cannotShowVisualization. rewrite truthy_key_find.
  - split.
    + intros (key & Hin & Hkey). apply elem_of_Object_keys in Hin as [msgs Hm].
      apply andb_true_iff in Hkey as [Hf Hlen].
      apply bool_decide_eq_true in Hf, Hlen.
      exists key, msgs. unfold errors_at in Hlen. rewrite Hm in Hlen.
      repeat split; [done..|]. intros ->. simpl in Hlen. lia.
    + intros (key & msgs & Hm & Hf & Hne). exists key. split.
      * apply elem_of_Object_keys. by eexists.
      * apply andb_true_iff. split; apply bool_decide_eq_true; [done|].
        unfold errors_at. rewrite Hm. destruct msgs; [done|simpl; lia].
  - intros key Hkey. apply andb_true_iff in Hkey as [Hf _].
    by apply bool_decide_eq_true in Hf.
Qed.

(** The callout is shown exactly when a validated field has a message and
    the parameter of that name has a value. *)
Lemma hasExpressionErrors_spec (errors : ErrorObject) ruleParams :
  hasExpressionErrors errors ruleParams = true
  ↔ ∃ key msgs, errors !! key = Some msgs
                ∧ key ∈ expressionFieldsWithValidation ∧ msgs ≠ []
                ∧ param_defined ruleParams key = true.
Proof.
  unfold hasExpressionErrors. rewrite truthy_key_find.
  - split.
    + intros (key & Hin & Hkey). apply elem_of_Object_keys in Hin as [msgs Hm].
      apply andb_true_iff in Hkey as [Hkey Hdef].
      apply andb_true_iff in Hkey as [Hf Hlen].
      apply bool_decide_eq_true in Hf, Hlen.
      exists key, msgs. unfold errors_at in Hlen. rewrite Hm in Hlen.
      repeat split; [done..| |done]. intros ->. simpl in Hlen. lia.
    + intros (key & msgs & Hm & Hf & Hne & Hdef). exists key. split.
      * apply elem_of_Object_keys. by eexists.
      * rewrite !andb_true_iff. repeat split; [..|done];
          apply bool_decide_eq_true; [done|].
        unfold errors_at. rewrite Hm. destruct msgs; [done|simpl; lia].
  - intros key Hkey. apply andb_true_iff in Hkey as [Hkey _].
    apply andb_true_iff in Hkey as [Hf _].
    by apply bool_decide_eq_true in Hf.
Qed.

(** X18.  Whenever the error callout is shown the preview is withheld: the
    callout's condition is the preview's with one more conjunct. *)
Theorem hasExpressionErrors_withholds_preview (errors : ErrorObject)
    ruleParams :
  hasExpressionErrors errors ruleParams = true →
  cannotShowVisualization errors = true.
Proof.
  rewrite hasExpressionErrors_spec, cannotShowVisualization_spec.
  intros (key & msgs & ? & ? & ? & _). by exists key, msgs.
Qed.

(** X19.  Messages on [threshold0] and [threshold1] never raise the error
    callout: the rule parameters have no property of these names, so
    [ruleParams[errorKey]] is [undefined] for them. *)
Theorem hasExpressionErrors_ignores_thresholds (errors : ErrorObject)
    ruleParams :
  (∀ key msgs, errors !! key = Some msgs → msgs ≠ [] →
     key = "threshold0" ∨ key = "threshold1") →
  hasExpressionErrors errors ruleParams = false.
Proof.
  intros Honly. apply not_true_is_false. rewrite hasExpressionErrors_spec.
  intros (key & msgs & Hm & _ & Hne & Hdef).
  by destruct (Honly key msgs Hm Hne) as [->| ->].
Qed.

(** X20.  Messages on keys that are not validated fields, such as
    [filterKuery] or [aggType], neither raise the callout nor withhold the
    preview. *)
Theorem unvalidated_errors_ignored (errors : ErrorObject) ruleParams :
  (∀ key, key ∈ expressionFieldsWithValidation → errors_at errors key = []) →
  cannotShowVisualization errors = false
  ∧ hasExpressionErrors errors ruleParams = false.
Proof.
  intros Hnone.
  assert (Hpreview : cannotShowVisualization errors = false).
  { apply not_true_is_false. rewrite cannotShowVisualization_spec.
    intros (key & msgs & Hm & Hf & Hne). apply Hnone in Hf.
    unfold errors_at in Hf. by rewrite Hm in Hf. }
  split; [done|]. apply not_true_is_false. rewrite hasExpressionErrors_spec.
  intros (key & msgs & Hm & Hf & Hne & _). apply Hnone in Hf.
  unfold errors_at in Hf. by rewrite Hm in Hf.
Qed.

(** X21.  On a rule whose [index], [timeField], [aggField], [termSize],
    [termField] and [timeWindowSize] have no value yet, the callout is not
    shown, whatever the validation messages are. *)
Theorem hasExpressionErrors_fresh_rule (errors : ErrorObject) ruleParams :
  index ruleParams = None → timeField ruleParams = None →
  aggField ruleParams = None → termSize ruleParams = None →
  termField ruleParams = None → timeWindowSize ruleParams = None →
  hasExpressionErrors errors ruleParams = false.
Proof.
  intros Hi Htf Haf Hts Htm Htw. apply not_true_is_false.
  rewrite hasExpressionErrors_spec.
  intros (key & msgs & _ & Hf & _ & Hdef).
  each_validated_field Hf; simpl in Hdef;
    rewrite ?Hi, ?Htf, ?Haf, ?Hts, ?Htm, ?Htw in Hdef; done.
Qed.

End editor_flags.

Section editor_flag_examples.
Import Editor Samples.

Lemma hasExpressionErrors_withholds_preview_witness :
  cannotShowVisualization index_errors = true.
Proof.
  exact (hasExpressionErrors_withholds_preview index_errors sample_params
           eq_refl).
Defined.

Lemma hasExpressionErrors_ignores_thresholds_witness :
  hasExpressionErrors threshold_errors sample_params = false.
Proof.
  apply (hasExpressionErrors_ignores_thresholds threshold_errors
           sample_params).
  intros key msgs Hm _. unfold threshold_errors in Hm.
  apply lookup_singleton_Some in Hm as [<- _]. by left.
Defined.

Lemma unvalidated_errors_ignored_witness :
  cannotShowVisualization filter_errors = false
  ∧ hasExpressionErrors filter_errors sample_params = false.
Proof.
  apply (unvalidated_errors_ignored filter_errors sample_params).
  intros key Hf. unfold errors_at, filter_errors.
  rewrite lookup_singleton_ne; [done|].
  intros <-.
  exact (bool_decide_eq_false_1
           ("filterKuery" ∈ expressionFieldsWithValidation) eq_refl Hf).
Defined.

Lemma hasExpressionErrors_fresh_rule_witness :
  hasExpressionErrors index_errors fresh_params = false.
Proof.
  exact (hasExpressionErrors_fresh_rule index_errors fresh_params
           eq_refl eq_refl eq_refl eq_refl eq_refl eq_refl).
Defined.

End editor_flag_examples.
